(** * scripts/gas-report.py: the gas report runner

    [main] deploys the [TestRecordsMerkleTree] mock contract, seeds its root
    and leaf count, submits one update transaction and prints the gas summary
    and the call trace of that transaction.

    Everything the script does goes through brownie ([accounts], the contract
    container, the contract handle, the transaction receipt).  The embedding
    keeps the script as a monadic program and takes brownie as an arbitrary
    environment: every statement about [main] below is quantified over all
    environments and all initial worlds. *)

From Stdlib Require Import ZArith List String Bool Lia.
From ExtLib Require Import Structures.Monad.
Import ListNotations.
Import MonadNotation.
Local Open Scope string_scope.
Local Open Scope Z_scope.
Local Open Scope list_scope.
Local Open Scope monad_scope.

(** ** Python values the script builds *)

(** Positional arguments of a contract call: an [int], or a list of [int]s.
    Python integers are unbounded, hence [Z]. *)
Inductive pyarg : Type :=
| PInt (n : Z)
| PList (l : list Z).

(** [l * n] on Python lists: [n] copies of [l], none when [n <= 0]. *)
Definition list_mul {A : Type} (l : list A) (n : Z) : list A :=
  List.concat (repeat l (Z.to_nat n)).

(** The literals of [main]. *)
Definition tree_depth : Z := 20.

Definition initial_root_value : Z :=
  16338819200219295738128869281163133642735762710891814031809540606861827401155.

Definition initial_num_of_leaves : Z := 1.

Definition leaf_value : Z :=
  17101599813294219906421080963940202236242422543188383858545041456174912634953.

Definition flatten_frontier : list Z := [leaf_value] ++ list_mul [0] 60.

Definition elems : list Z := [1; 2; 3; 4; 5].

Section Runner.

(** ** The environment

    Opaque handles of brownie objects, the exceptions brownie or the node can
    raise, and the state of the test chain. *)
Variables Account Contract Tx Exn World : Type.

(** The transaction parameters dict, [{"from": accounts[0]}]. *)
Definition tx_params : Type := list (string * Account).

Fixpoint dict_get (k : string) (d : tx_params) : option Account :=
  match d with
  | [] => None
  | (k', v) :: d' => if String.eqb k k' then Some v else dict_get k d'
  end.

(** What one external call does: the lines it writes to standard output, the
    value it returns or the exception it raises, and the world it leaves. *)
Record reply (X : Type) : Type := Reply {
  printed : list string;
  result : Exn + X;
  world_after : World
}.
Arguments Reply {X} _ _ _.
Arguments printed {X} _.
Arguments result {X} _.
Arguments world_after {X} _.

(** The brownie interface the script uses.  [accounts] is the container of
    pre-funded test identities, indexable by position; a lookup does not
    touch the chain.  [env_status] is the attribute read [tx.status]. *)
Record Env : Type := {
  env_accounts : Z -> Exn + Account;
  env_deploy : Z -> tx_params -> World -> reply Contract;
  env_transact : Contract -> string -> list pyarg -> tx_params -> World -> reply Tx;
  env_info : Tx -> World -> reply unit;
  env_status : Tx -> World -> reply Z;
  env_call_trace : Tx -> World -> reply unit
}.

(** ** The log of a run *)

(** An external operation with the arguments the script passed. *)
Inductive op : Type :=
| OpAccounts (i : Z)
| OpDeploy (depth : Z) (params : tx_params)
| OpTransact (c : Contract) (method : string) (args : list pyarg) (params : tx_params)
| OpInfo (tx : Tx)
| OpStatus (tx : Tx)
| OpCallTrace (tx : Tx).

(** The value an operation returned. *)
Inductive retval : Type :=
| RAccount (a : Account)
| RContract (c : Contract)
| RTx (tx : Tx)
| RStatus (s : Z)
| RNone.

(** One completed external operation: what was called, the standard output
    at the moment the call was issued, what the call wrote, and how it ended.
    An entry is appended when its call has returned or raised, and the next
    call of the script is issued after that: the order of the entries is the
    order of the calls. *)
Record entry : Type := Entry {
  e_op : op;
  e_before : list string;
  e_printed : list string;
  e_outcome : Exn + retval
}.

Record state : Type := State {
  world : World;
  stdout : list string;
  log : list entry
}.

(** ** The monad of the script: state that survives an exception *)

Definition M (A : Type) : Type := state -> (Exn + A) * state.

Definition M_ret {A : Type} (a : A) : M A := fun st => (inr a, st).

Definition M_bind {A B : Type} (c : M A) (k : A -> M B) : M B :=
  fun st =>
    match c st with
    | (inl ex, st') => (inl ex, st')
    | (inr a, st') => k a st'
    end.

#[global] Instance Monad_M : Monad M := {| ret := @M_ret; bind := @M_bind |}.

(** The state after an external operation replied [r]: the world it left,
    its output appended to standard output, its entry appended to the log. *)
Definition record {X : Type} (o : op) (inj : X -> retval) (r : reply X)
    (st : state) : state :=
  {| world := world_after r;
     stdout := stdout st ++ printed r;
     log := log st ++ [{| e_op := o;
                          e_before := stdout st;
                          e_printed := printed r;
                          e_outcome := match result r with
                                       | inl ex => inl ex
                                       | inr x => inr (inj x)
                                       end |}] |}.

(** Issue one external operation against the world, record it, and return
    its value or raise its exception. *)
Definition perform {X : Type} (o : op) (inj : X -> retval)
    (h : World -> reply X) : M X :=
  fun st => let r := h (world st) in (result r, record o inj r st).

(** ** Environments that differ in one answer *)

(** [env] with the value of every successful [tx.status] read replaced by
    [v tx w]; what the read prints, whether it raises and the world it leaves
    stay as they are. *)
Definition set_status (v : Tx -> World -> Z) (env : Env) : Env :=
  {| env_accounts := env_accounts env;
     env_deploy := env_deploy env;
     env_transact := env_transact env;
     env_info := env_info env;
     env_status := fun tx w =>
       let r := env_status env tx w in
       {| printed := printed r;
          result := match result r with
                    | inl ex => inl ex
                    | inr _ => inr (v tx w)
                    end;
          world_after := world_after r |};
     env_call_trace := env_call_trace env |}.

(** [env] with the result object of every successful
    [testSetRootAndNumLeaves] call replaced by [v] of it. *)
Definition set_seed_result (v : Tx -> Tx) (env : Env) : Env :=
  {| env_accounts := env_accounts env;
     env_deploy := env_deploy env;
     env_transact := fun c m args params w =>
       let r := env_transact env c m args params w in
       if String.eqb m "testSetRootAndNumLeaves"
       then {| printed := printed r;
               result := match result r with
                         | inl ex => inl ex
                         | inr tx => inr (v tx)
                         end;
               world_after := world_after r |}
       else r;
     env_info := env_info env;
     env_status := env_status env;
     env_call_trace := env_call_trace env |}.

Variable env : Env.

(** [accounts[i]] *)
Definition accounts_getitem (i : Z) : M Account :=
  perform (OpAccounts i) RAccount
          (fun w => Reply [] (env_accounts env i) w).

(** [TestRecordsMerkleTree.deploy(depth, params)] *)
Definition TestRecordsMerkleTree_deploy (depth : Z) (params : tx_params)
    : M Contract :=
  perform (OpDeploy depth params) RContract (env_deploy env depth params).

(** [c.method( *args, params)].  Resolving [method] on the handle belongs to
    the call: a handle without that method is an exception of the call. *)
Definition contract_call (c : Contract) (method : string)
    (args : list pyarg) (params : tx_params) : M Tx :=
  perform (OpTransact c method args params) RTx
          (env_transact env c method args params).

(** [tx.info()] *)
Definition tx_info (tx : Tx) : M unit :=
  perform (OpInfo tx) (fun _ => RNone) (env_info env tx).

(** [tx.status] *)
Definition tx_status (tx : Tx) : M Z :=
  perform (OpStatus tx) RStatus (env_status env tx).

(** [tx.call_trace()] *)
Definition tx_call_trace (tx : Tx) : M unit :=
  perform (OpCallTrace tx) (fun _ => RNone) (env_call_trace env tx).

(** ** The script *)

Definition main : M unit :=
  a0 <- accounts_getitem 0 ;;
  mock_contract <- TestRecordsMerkleTree_deploy tree_depth [("from", a0)] ;;
  a1 <- accounts_getitem 0 ;;
  contract_call mock_contract "testSetRootAndNumLeaves"
                [PInt initial_root_value; PInt initial_num_of_leaves]
                [("from", a1)] ;;
  a2 <- accounts_getitem 0 ;;
  tx <- contract_call mock_contract "testUpdateRecordsMerkleTree"
                      [PList flatten_frontier; PList elems]
                      [("from", a2)] ;;
  tx_info tx ;;
  tx_status tx ;;
  tx_call_trace tx.

(** A run starts with nothing printed and nothing called. *)
Definition start (w : World) : state :=
  {| world := w; stdout := []; log := [] |}.

Definition run_main (w : World) : (Exn + unit) * state := main (start w).

(** ** Reading a log *)

(** The three steps of the scenario: deployment, the seeding call
    ([testSetRootAndNumLeaves]) and the update call
    ([testUpdateRecordsMerkleTree]). *)
Inductive step : Type := Deploy | Seed | Update.

Definition step_of (o : op) : option step :=
  match o with
  | OpDeploy _ _ => Some Deploy
  | OpTransact _ m _ _ =>
      if String.eqb m "testSetRootAndNumLeaves" then Some Seed
      else if String.eqb m "testUpdateRecordsMerkleTree" then Some Update
      else None
  | _ => None
  end.

Definition steps (l : list entry) : list step :=
  flat_map (fun en => match step_of (e_op en) with
                      | Some s => [s]
                      | None => []
                      end) l.

Definition is_step (s : step) (en : entry) : Prop := step_of (e_op en) = Some s.

(** The call of an entry came back with a value / ended in an exception. *)
Definition returned (en : entry) : Prop := exists v, e_outcome en = inr v.

Definition raised (en : entry) (ex : Exn) : Prop := e_outcome en = inl ex.

(** The identity that pays for an operation, if it is a transaction. *)
Definition funder (o : op) : option (option Account) :=
  match o with
  | OpDeploy _ params => Some (dict_get "from" params)
  | OpTransact _ _ _ params => Some (dict_get "from" params)
  | _ => None
  end.

(** The transaction result a diagnostic operation reads. *)
Definition diagnosed (o : op) : option Tx :=
  match o with
  | OpInfo tx => Some tx
  | OpStatus tx => Some tx
  | OpCallTrace tx => Some tx
  | _ => None
  end.

(** Two entries of the same call: same operation and arguments, same
    standard output before it, same lines written. *)
Definition same_call (en en' : entry) : Prop :=
  e_op en = e_op en' /\ e_before en = e_before en' /\
  e_printed en = e_printed en'.

(** ... that ended the same way, up to the value of a status read. *)
Definition same_but_status (en en' : entry) : Prop :=
  same_call en en' /\
  (e_outcome en = e_outcome en' \/
   exists s s', e_outcome en = inr (RStatus s) /\
                e_outcome en' = inr (RStatus s')).

(** ... that ended the same way, up to the result object of the seeding
    call. *)
Definition same_but_seed_result (en en' : entry) : Prop :=
  same_call en en' /\
  (e_outcome en = e_outcome en' \/
   (is_step Seed en /\
    exists tx tx', e_outcome en = inr (RTx tx) /\
                   e_outcome en' = inr (RTx tx'))).

(** The status of [tx] can read [s]. *)
Definition status_reads (tx : Tx) (s : Z) : Prop :=
  exists w, result (env_status env tx w) = inr s.

(** brownie as [brownie run] drives it: a transaction that reverts raises
    [VirtualMachineError], so a contract call that returns hands back a
    result whose status, read in the world the call left, is 1
    ([Status.Confirmed]).  Console mode, where the receipt of a revert is
    returned, is outside this assumption. *)
Definition reverted_call_raises : Prop :=
  forall c m args params w tx,
    result (env_transact env c m args params w) = inr tx ->
    result (env_status env tx
              (world_after (env_transact env c m args params w))) = inr 1.

(** The update call is issued only after a seeding call that returned a
    result whose status reads success (1, brownie's [Status.Confirmed]). *)
Definition seeding_succeeded_before_update (w : World) : Prop :=
  forall pre u post,
    log (snd (run_main w)) = pre ++ u :: post ->
    is_step Update u ->
    exists s tx,
      In s pre /\ is_step Seed s /\ e_outcome s = inr (RTx tx) /\
      status_reads tx 1.

End Runner.

Arguments Reply {Exn World X} _ _ _.
Arguments printed {Exn World X} _.
Arguments result {Exn World X} _.
Arguments world_after {Exn World X} _.
Arguments e_op {Account Contract Tx Exn} _.
Arguments e_before {Account Contract Tx Exn} _.
Arguments e_printed {Account Contract Tx Exn} _.
Arguments e_outcome {Account Contract Tx Exn} _.
Arguments world {Account Contract Tx Exn World} _.
Arguments stdout {Account Contract Tx Exn World} _.
Arguments log {Account Contract Tx Exn World} _.
Arguments env_accounts {Account Contract Tx Exn World} _ _.
Arguments env_deploy {Account Contract Tx Exn World} _ _ _ _.
Arguments env_transact {Account Contract Tx Exn World} _ _ _ _ _ _.
Arguments env_info {Account Contract Tx Exn World} _ _ _.
Arguments env_status {Account Contract Tx Exn World} _ _ _.
Arguments env_call_trace {Account Contract Tx Exn World} _ _ _.
Arguments OpAccounts {Account Contract Tx} i.
Arguments OpDeploy {Account Contract Tx} depth params.
Arguments OpTransact {Account Contract Tx} c method args params.
Arguments OpInfo {Account Contract Tx} tx.
Arguments OpStatus {Account Contract Tx} tx.
Arguments OpCallTrace {Account Contract Tx} tx.
Arguments RAccount {Account Contract Tx} a.
Arguments RContract {Account Contract Tx} c.
Arguments RTx {Account Contract Tx} tx.
Arguments RStatus {Account Contract Tx} s.
Arguments RNone {Account Contract Tx}.
Arguments record {Account Contract Tx Exn World X} o inj r st.
Arguments perform {Account Contract Tx Exn World X} o inj h _.
Arguments accounts_getitem {Account Contract Tx Exn World} env i _.
Arguments TestRecordsMerkleTree_deploy {Account Contract Tx Exn World} env depth params _.
Arguments contract_call {Account Contract Tx Exn World} env c method args params _.
Arguments tx_info {Account Contract Tx Exn World} env tx _.
Arguments tx_status {Account Contract Tx Exn World} env tx _.
Arguments tx_call_trace {Account Contract Tx Exn World} env tx _.
Arguments start {Account Contract Tx Exn World} w.
Arguments main {Account Contract Tx Exn World} env _.
Arguments run_main {Account Contract Tx Exn World} env w.
Arguments step_of {Account Contract Tx} o.
Arguments steps {Account Contract Tx Exn} l.
Arguments is_step {Account Contract Tx Exn} s en.
Arguments returned {Account Contract Tx Exn} en.
Arguments raised {Account Contract Tx Exn} en ex.
Arguments set_status {Account Contract Tx Exn World} v env.
Arguments set_seed_result {Account Contract Tx Exn World} v env.
Arguments funder {Account Contract Tx} o.
Arguments diagnosed {Account Contract Tx} o.
Arguments same_call {Account Contract Tx Exn} en en'.
Arguments same_but_status {Account Contract Tx Exn} en en'.
Arguments same_but_seed_result {Account Contract Tx Exn} en en'.
Arguments status_reads {Account Contract Tx Exn World} env tx s.
Arguments seeding_succeeded_before_update {Account Contract Tx Exn World} env w.
Arguments reverted_call_raises {Account Contract Tx Exn World} env.
Arguments flatten_frontier : simpl never.
Arguments initial_root_value : simpl never.
Arguments leaf_value : simpl never.

(** ** A small test chain

    A concrete environment to run [main] against: accounts are numbered, a
    contract handle is the number of the transaction that deployed it, the
    world is the number of transactions mined so far, and a fault plan says
    what goes wrong. *)
Module Sim.

Inductive exn : Type :=
| IndexError
| AttributeError
| VirtualMachineError
| RPCRequestError.

(** A receipt: the position of the transaction and its status
    (1 confirmed, 0 reverted). *)
Record receipt : Type := Receipt {
  nonce : nat;
  status : Z
}.

Record plan : Type := Plan {
  funded : Z;               (* number of test accounts *)
  deploy_fails : bool;
  seed_status : Z;
  update_status : Z;
  raise_on_revert : bool;   (* false: the receipt of a revert is returned *)
  trace_available : bool    (* false: debug_traceTransaction fails *)
}.

Definition accounts (p : plan) (i : Z) : exn + nat :=
  if (0 <=? i) && (i <? funded p) then inr (Z.to_nat i)
  else if (- funded p <=? i) && (i <? 0) then inr (Z.to_nat (funded p + i))
  else inl IndexError.

Definition deploy (p : plan) (depth : Z) (params : tx_params nat) (w : nat)
    : reply exn nat nat :=
  if deploy_fails p
  then Reply ["Transaction sent"] (inl VirtualMachineError) w
  else Reply ["Transaction sent"; "TestRecordsMerkleTree deployed"]
             (inr w) (S w).

Definition submit (p : plan) (s : Z) (w : nat) : reply exn nat receipt :=
  if (s =? 1) || negb (raise_on_revert p)
  then Reply ["Transaction sent"; "Transaction confirmed"]
             (inr (Receipt w s)) (S w)
  else Reply ["Transaction sent"] (inl VirtualMachineError) (S w).

Definition transact (p : plan) (c : nat) (method : string)
    (args : list pyarg) (params : tx_params nat) (w : nat)
    : reply exn nat receipt :=
  if String.eqb method "testSetRootAndNumLeaves" then submit p (seed_status p) w
  else if String.eqb method "testUpdateRecordsMerkleTree"
       then submit p (update_status p) w
       else Reply [] (inl AttributeError) w.

Definition info (tx : receipt) (w : nat) : reply exn nat unit :=
  Reply ["Transaction was Mined"; "Gas Used"] (inr tt) w.

Definition read_status (tx : receipt) (w : nat) : reply exn nat Z :=
  Reply [] (inr (status tx)) w.

Definition call_trace (p : plan) (tx : receipt) (w : nat) : reply exn nat unit :=
  if trace_available p
  then Reply ["Call trace for the transaction"] (inr tt) w
  else Reply [] (inl RPCRequestError) w.

Definition env (p : plan) : Env nat nat receipt exn nat :=
  {| env_accounts := accounts p;
     env_deploy := deploy p;
     env_transact := transact p;
     env_info := info;
     env_status := read_status;
     env_call_trace := call_trace p |}.

(** Everything works. *)
Definition healthy : plan :=
  {| funded := 10; deploy_fails := false; seed_status := 1;
     update_status := 1; raise_on_revert := true; trace_available := true |}.

(** The node cannot produce the trace. *)
Definition no_trace : plan :=
  {| funded := 10; deploy_fails := false; seed_status := 1;
     update_status := 1; raise_on_revert := true; trace_available := false |}.

(** The seeding transaction reverts and its receipt is returned, as brownie
    does in console mode. *)
Definition seed_reverted : plan :=
  {| funded := 10; deploy_fails := false; seed_status := 0;
     update_status := 1; raise_on_revert := false; trace_available := true |}.

(** The update transaction reverts and brownie raises. *)
Definition update_raises : plan :=
  {| funded := 10; deploy_fails := false; seed_status := 1;
     update_status := 0; raise_on_revert := true; trace_available := true |}.

End Sim.

(** ** The operations of [main], in program order *)

Section Script.

Context {Account Contract Tx : Type}.

(** Line 8: [accounts[0]], then the deployment. *)
Definition script_deploy (a : Account) : list (op Account Contract Tx) :=
  [OpAccounts 0; OpDeploy tree_depth [("from", a)]].

(** Lines 20-26: the two contract calls, each after its own [accounts[0]]. *)
Definition script_calls (a : Account) (c : Contract)
    : list (op Account Contract Tx) :=
  [OpAccounts 0;
   OpTransact c "testSetRootAndNumLeaves"
              [PInt initial_root_value; PInt initial_num_of_leaves]
              [("from", a)];
   OpAccounts 0;
   OpTransact c "testUpdateRecordsMerkleTree"
              [PList flatten_frontier; PList elems]
              [("from", a)]].

(** Lines 27-33: the diagnostics of the update transaction. *)
Definition script_report (tx : Tx) : list (op Account Contract Tx) :=
  [OpInfo tx; OpStatus tx; OpCallTrace tx].

End Script.

(** * Properties of [main] *)

Section RunnerFacts.

Context {Account Contract Tx Exn World : Type}.
Implicit Types (env : Env Account Contract Tx Exn World) (w : World).
Implicit Types (en : entry Account Contract Tx Exn).

(** Where an entry can sit in a log that starts with a known entry. *)
Lemma cons_split {A : Type} (a x : A) (l pre post : list A) :
  a :: l = pre ++ x :: post ->
  (pre = [] /\ a = x /\ l = post) \/
  (exists pre', pre = a :: pre' /\ l = pre' ++ x :: post).
Proof.
  destruct pre as [|b pre']; cbn; intros H; injection H as -> ->.
  - left; auto.
  - right; eauto.
Qed.

Lemma nil_split {A : Type} (x : A) (pre post : list A) :
  [] = pre ++ x :: post -> False.
Proof. destruct pre; discriminate. Qed.

(** One external call followed by the rest of the script: the rest runs
    when the call returns, and is skipped when it raises. *)
Lemma bind_perform {X B : Type} o (inj : X -> retval Account Contract Tx)
    (h : World -> reply Exn World X)
    (k : X -> M Account Contract Tx Exn World B) st :
  (x <- perform o inj h ;; k x) st =
  match result (h (world st)) with
  | inl ex => (inl ex, record o inj (h (world st)) st)
  | inr x => k x (record o inj (h (world st)) st)
  end.
Proof.
  cbn. unfold M_bind, perform. cbn. destruct (result (h (world st))); reflexivity.
Qed.

(** An external operation only appends: to standard output what it wrote,
    to the log its own entry. *)
Lemma perform_appends {X : Type} o (inj : X -> retval Account Contract Tx)
    (h : World -> reply Exn World X) (st : state Account Contract Tx Exn World) :
  exists en,
    stdout (snd (perform o inj h st)) = stdout st ++ e_printed en /\
    log (snd (perform o inj h st)) = log st ++ [en] /\
    e_op en = o /\ e_before en = stdout st.
Proof.
  unfold perform, record; cbn.
  eexists (Entry _ _ _ _ o (stdout st) (printed (h (world st))) _).
  repeat split.
Qed.

(** Follow [main] through every way its external calls can end. *)
Ltac run_step :=
  first [rewrite bind_perform | unfold perform at 1];
  cbn [world record start result printed world_after];
  match goal with
  | H : ?r = _ |- context [match ?r with _ => _ end] => rewrite H
  | H : ?r = _ |- context [match result ?r with _ => _ end] =>
      rewrite H; cbn [result printed world_after]
  | |- context [match result ?r with _ => _ end] =>
      destruct r as [?out [?ex | ?x] ?w] eqn:?; cbn [result printed world_after]
  | |- context [match ?r with _ => _ end] => destruct r as [?ex | ?x] eqn:?
  | |- _ => idtac
  end.

Ltac run_cases :=
  unfold run_main, main, accounts_getitem, TestRecordsMerkleTree_deploy,
    contract_call, tx_info, tx_status, tx_call_trace;
  cbn [env_accounts env_deploy env_transact env_info env_status
       env_call_trace String.eqb Ascii.eqb Bool.eqb];
  repeat run_step;
  cbn -[flatten_frontier];
  try match goal with
      | |- context [result ?r] =>
          destruct r as [?out [?ex | ?x] ?w] eqn:?; cbn -[flatten_frontier]
      end.

(** Relate two concrete logs entry by entry. *)
Ltac pair_entries :=
  repeat (apply Forall2_cons; [cbn beta | ]); try apply Forall2_nil.

(** Split a statement about every entry of a concrete log. *)
Ltac each_entry :=
  repeat (apply Forall_cons; [cbn beta | ]); try apply Forall_nil.

(** Choose an entry of a concrete log, the next one on backtracking. *)
Ltac pick_entry := (left; reflexivity) + (right; pick_entry).

(** Enumerate the positions of an entry in a concrete log. *)
Ltac positions H :=
  repeat match type of H with
    | [] = _ ++ _ :: _ => exfalso; exact (nil_split _ _ _ H)
    | _ :: _ = _ ++ _ :: _ =>
        apply cons_split in H;
        destruct H as [(-> & <- & <-) | (? & -> & H)]
    end.

(** C1. In every run the steps occur in the order deploy, seeding call,
    update call, each at most once; a run that completes has made all three;
    and an update call is issued only when a seeding call has returned
    before it, itself after a deployment that has returned. *)
Theorem main_steps_in_order :
  forall env w,
    let l := log (snd (run_main env w)) in
    (exists n, steps l = firstn n [Deploy; Seed; Update]) /\
    (forall r, fst (run_main env w) = inr r -> steps l = [Deploy; Seed; Update]) /\
    (forall pre u post,
        l = pre ++ u :: post -> is_step Update u ->
        exists pre1 s pre2,
          pre = pre1 ++ s :: pre2 /\ is_step Seed s /\ returned s /\
          exists d, In d pre1 /\ is_step Deploy d /\ returned d).
Proof.
  intros env w. run_cases.
  all: split;
    [first [exists 0%nat; reflexivity | exists 1%nat; reflexivity
           | exists 2%nat; reflexivity | exists 3%nat; reflexivity]|].
  all: split; [intros r Hr; first [discriminate Hr | reflexivity]|].
  all: intros pre u post H Hu; positions H; try discriminate Hu.
  all: eexists [_; _; _], _, [_]; split; [reflexivity|];
    split; [reflexivity|]; split; [eexists; reflexivity|].
  all: eexists; split; [right; left; reflexivity|];
    split; [reflexivity | eexists; reflexivity].
Qed.

(** What precedes an update call: the five operations up to the seeding
    call and the third lookup, all returned, and no diagnostic among them. *)
Theorem update_only_after_seeding_returned :
  forall env w pre u post,
    log (snd (run_main env w)) = pre ++ u :: post ->
    is_step Update u ->
    exists a c tx out1 out2,
      map e_op pre =
        [OpAccounts 0;
         OpDeploy 20 [("from", a)];
         OpAccounts 0;
         OpTransact c "testSetRootAndNumLeaves"
                    [PInt initial_root_value; PInt 1] [("from", a)];
         OpAccounts 0] /\
      map e_outcome pre =
        [inr (RAccount a); inr (RContract c); inr (RAccount a);
         inr (RTx tx); inr (RAccount a)] /\
      Forall (fun en => diagnosed (e_op en) = None) pre /\
      u = {| e_op := OpTransact c "testUpdateRecordsMerkleTree"
                                [PList flatten_frontier; PList elems]
                                [("from", a)];
             e_before := out1;
             e_printed := out2;
             e_outcome := e_outcome u |}.
Proof.
  intros env w pre u post. run_cases; intros H Hu; positions H;
    try discriminate Hu.
  all: do 5 eexists; split; [reflexivity|]; split; [reflexivity|];
    split; [each_entry; reflexivity | reflexivity].
Qed.

(** C2. In the fixed scenario, under [brownie run] (a reverted transaction
    raises), whenever the update call is issued, with the given frontier and
    elements, a seeding call with the given root and leaf count 1 on the
    contract deployed with depth 20 has returned before it, and the status of
    the transaction result it returned reads success. *)
Theorem seeding_succeeded_before_update_issued :
  forall env w,
    reverted_call_raises env ->
    forall pre u post,
      log (snd (run_main env w)) = pre ++ u :: post ->
      is_step Update u ->
      exists a c s tx,
        In s pre /\
        is_step Seed s /\
        e_op s = OpTransact c "testSetRootAndNumLeaves"
                            [PInt initial_root_value; PInt 1] [("from", a)] /\
        e_outcome s = inr (RTx tx) /\
        status_reads env tx 1 /\
        Exists (fun d => e_op d = OpDeploy 20 [("from", a)] /\
                         e_outcome d = inr (RContract c)) pre /\
        e_op u = OpTransact c "testUpdateRecordsMerkleTree"
                            [PList flatten_frontier; PList elems]
                            [("from", a)].
Proof.
  intros env w Hrev pre u post. run_cases; intros H Hu; positions H;
    try discriminate Hu.
  all: match goal with
       | Hs : env_transact _ ?c "testSetRootAndNumLeaves" ?args ?p ?w0 =
              {| printed := _; result := inr ?tx; world_after := _ |} |- _ =>
           pose proof (Hrev c "testSetRootAndNumLeaves" args p w0 tx) as Hst;
           rewrite Hs in Hst; specialize (Hst eq_refl)
       end.
  all: do 4 eexists; split; [do 3 right; left; reflexivity|].
  all: split; [reflexivity|]; split; [reflexivity|]; split; [reflexivity|].
  all: split; [eexists; exact Hst|].
  all: split; [apply Exists_cons_tl; apply Exists_cons_hd; split; reflexivity
              | reflexivity].
Qed.


(** C4. Every deployment of a run has tree depth 20, every seeding call has
    the root [initial_root_value] and the leaf count 1.  The script checks
    nothing itself: the deployment is issued as soon as [accounts[0]] exists,
    the seeding call as soon as the deployment returns a handle (and on that
    handle), and an exception that ends the run is the exception of an
    external operation. *)
Theorem main_deploy_and_seed_arguments :
  forall env w,
    let l := log (snd (run_main env w)) in
    Forall (fun en =>
              is_step Deploy en ->
              exists a, e_op en = OpDeploy 20 [("from", a)]) l /\
    Forall (fun en =>
              is_step Seed en ->
              exists c a,
                e_op en =
                  OpTransact c "testSetRootAndNumLeaves"
                    [PInt 16338819200219295738128869281163133642735762710891814031809540606861827401155;
                     PInt 1]
                    [("from", a)]) l /\
    (forall a, env_accounts env 0 = inr a -> Exists (is_step Deploy) l) /\
    Forall (fun en =>
              forall c, is_step Deploy en -> e_outcome en = inr (RContract c) ->
              Exists (fun s => is_step Seed s /\
                               exists args params,
                                 e_op s = OpTransact c "testSetRootAndNumLeaves"
                                                     args params) l) l /\
    (forall ex, fst (run_main env w) = inl ex ->
                exists en, In en l /\ raised en ex).
Proof.
  intros env w.
  change 16338819200219295738128869281163133642735762710891814031809540606861827401155
    with initial_root_value.
  run_cases.
  all: repeat match goal with |- _ /\ _ => split end.
  all: repeat match goal with |- _ /\ _ => split end.
  all: try (each_entry; intros Hs; try discriminate Hs;
            repeat eexists; reflexivity).
  all: try (intros ? Ha; try discriminate Ha;
            apply Exists_cons_tl; apply Exists_cons_hd; reflexivity).
  all: try (each_entry; intros c' Hd Hc; try discriminate Hd;
            try discriminate Hc; injection Hc as <-;
            do 3 apply Exists_cons_tl; apply Exists_cons_hd;
            split; first [reflexivity | repeat eexists]).
  all: intros ex' Hex; try discriminate Hex.
  all: injection Hex as <-;
    eexists; split; [pick_entry | reflexivity].
Qed.

(** C6. [tx.status] is read, once [tx.info()] has returned and on the same
    transaction result, and the value read is not used: replace the value of
    every status read by any other value, and the run ends the same way,
    prints the same, leaves the same world and makes the same calls with the
    same arguments and outcomes; the logs differ in the recorded status value
    only. *)
Theorem status_read_not_branched_on :
  forall env (v : Tx -> World -> Z) w,
    let a := run_main env w in
    let b := run_main (set_status v env) w in
    Forall (fun en =>
              forall tx, e_op en = OpInfo tx -> returned en ->
              Exists (fun s => e_op s = OpStatus tx) (log (snd a)))
           (log (snd a)) /\
    fst a = fst b /\
    stdout (snd a) = stdout (snd b) /\
    world (snd a) = world (snd b) /\
    Forall2 same_but_status (log (snd a)) (log (snd b)).
Proof.
  intros env v w. unfold set_status. run_cases.
  all: split;
    [each_entry; intros tx' Hi Hr; try discriminate Hi; injection Hi as <-;
     destruct Hr as [r Hr]; try discriminate Hr;
     do 7 apply Exists_cons_tl; apply Exists_cons_hd; reflexivity|].
  all: split; [reflexivity|]; split; [reflexivity|]; split; [reflexivity|].
  all: pair_entries; (split; [repeat split; reflexivity|]);
    first [left; reflexivity | right; do 2 eexists; split; reflexivity].
Qed.


(** C8. An exception raised by an external operation ends the run with that
    very exception: the operation is the last one of the log.  Conversely a
    run ends with an exception only when its last operation raised it, and in
    a run that completes every operation returned. *)
Theorem failure_propagates_and_ends_run :
  forall env w,
    let l := log (snd (run_main env w)) in
    (forall pre en post ex,
        l = pre ++ en :: post -> raised en ex ->
        post = [] /\ fst (run_main env w) = inl ex) /\
    (forall ex,
        fst (run_main env w) = inl ex ->
        exists pre en, l = pre ++ [en] /\ raised en ex /\ Forall returned pre) /\
    (forall r, fst (run_main env w) = inr r -> Forall returned l).
Proof.
  intros env w. run_cases.
  all: split; [intros pre en post ex' H Hr; positions H; try discriminate Hr;
               injection Hr as <-; split; reflexivity|].
  all: split; [intros ex' Hex; try discriminate Hex |
               intros r Hr; try discriminate Hr;
               each_entry; eexists; reflexivity].
  all: injection Hex as <-.
  - exists []. eexists. repeat split. constructor.
  - eexists [_]. eexists. repeat split. each_entry; eexists; reflexivity.
  - eexists [_; _; _]. eexists. repeat split. each_entry; eexists; reflexivity.
  - eexists [_; _; _; _; _]. eexists. repeat split.
    each_entry; eexists; reflexivity.
  - eexists [_; _; _; _; _; _]. eexists. repeat split.
    each_entry; eexists; reflexivity.
  - eexists [_; _; _; _; _; _; _]. eexists. repeat split.
    each_entry; eexists; reflexivity.
  - eexists [_; _; _; _; _; _; _; _]. eexists. repeat split.
    each_entry; eexists; reflexivity.
Qed.

(** C9. The script looks up no account but [accounts[0]], and every
    transaction of a run, the deployment, the seeding call and the update
    call, carries [{"from": a}] where [a] is that account. *)
Theorem every_transaction_from_account_zero :
  forall env w,
    let l := log (snd (run_main env w)) in
    Forall (fun en => forall i, e_op en = OpAccounts i -> i = 0) l /\
    Forall (fun en =>
              forall payer, funder (e_op en) = Some payer ->
              exists a, env_accounts env 0 = inr a /\ payer = Some a) l /\
    Forall (fun en =>
              forall s, step_of (e_op en) = Some s ->
              exists payer, funder (e_op en) = Some payer) l.
Proof.
  intros env w. run_cases.
  all: split; [each_entry; intros i Hi; cbn in Hi; congruence|].
  all: split; each_entry.
  all: try (intros payer Hp; try discriminate Hp; injection Hp as <-;
            eexists; split; reflexivity).
  all: intros s Hs; try discriminate Hs; eexists; reflexivity.
Qed.

(** C10. Every diagnostic operation of a run ([info], [status],
    [call_trace]) reads the result object the update call returned.  Nothing
    depends on the result object of the seeding call: replace it by any
    other, and the run ends the same way, prints the same, leaves the same
    world and makes the same calls; the logs differ in the result recorded
    for the seeding call only. *)
Theorem seeding_result_discarded :
  forall env (v : Tx -> Tx) w,
    let a := run_main env w in
    let b := run_main (set_seed_result v env) w in
    Forall (fun en =>
              forall tx, diagnosed (e_op en) = Some tx ->
              exists u, In u (log (snd a)) /\ is_step Update u /\
                        e_outcome u = inr (RTx tx)) (log (snd a)) /\
    fst a = fst b /\
    stdout (snd a) = stdout (snd b) /\
    world (snd a) = world (snd b) /\
    Forall2 same_but_seed_result (log (snd a)) (log (snd b)).
Proof.
  intros env v w. unfold set_seed_result. run_cases.
  all: split;
    [each_entry; intros tx' Hd; try discriminate Hd; injection Hd as <-;
     eexists; split;
     first [do 5 right; left; reflexivity | split; reflexivity]|].
  all: split; [reflexivity|]; split; [reflexivity|]; split; [reflexivity|].
  all: pair_entries; (split; [repeat split; reflexivity|]);
    first [left; reflexivity
          | right; split; [reflexivity | do 2 eexists; split; reflexivity]].
Qed.

(** ** Further properties of [main] *)

(** X1. The operations of a run, in order, are an initial part of the
    script: [accounts[0]], the deployment, then the seeding call and the
    update call, each after its own [accounts[0]], then [info], [status] and
    [call_trace]; a run stops after a transaction or a diagnostic, never
    after the second or third lookup.  Every contract call goes to the handle
    the deployment returned, and a run that completes has made all nine
    operations. *)
Theorem main_follows_script :
  forall env w,
    let l := log (snd (run_main env w)) in
    (map e_op l = [OpAccounts 0] \/
     (exists a, map e_op l = script_deploy a) \/
     (exists a c n,
         (n = 2 \/ n = 4)%nat /\
         map e_op l = script_deploy a ++ firstn n (script_calls a c)) \/
     (exists a c tx n,
         (1 <= n <= 3)%nat /\
         map e_op l =
           script_deploy a ++ script_calls a c ++ firstn n (script_report tx))) /\
    Forall (fun en =>
              forall c m args params,
                e_op en = OpTransact c m args params ->
                Exists (fun d => is_step Deploy d /\
                                 e_outcome d = inr (RContract c)) l) l /\
    (forall r, fst (run_main env w) = inr r ->
               exists a c tx,
                 map e_op l =
                   script_deploy a ++ script_calls a c ++ script_report tx).
Proof.
  intros env w. run_cases.
  all: split; [|split].
  all: try (intros r Hr; first [discriminate Hr | do 3 eexists; reflexivity]).
  all: try (each_entry; intros c' m args params Hop; try discriminate Hop;
            injection Hop as <- _ _ _;
            apply Exists_cons_tl; apply Exists_cons_hd; split; reflexivity).
  - left; reflexivity.
  - right; left; eexists; reflexivity.
  - right; right; left; exists x, x0, 2%nat; split; [left|]; reflexivity.
  - right; right; left; exists x, x0, 4%nat; split; [right|]; reflexivity.
  - right; right; right; exists x, x0, x2, 1%nat; split; [lia | reflexivity].
  - right; right; right; exists x, x0, x2, 2%nat; split; [lia | reflexivity].
  - right; right; right; exists x, x0, x2, 3%nat; split; [lia | reflexivity].
  - right; right; right; exists x, x0, x2, 3%nat; split; [lia | reflexivity].
Qed.


(** X3. Without an account at index 0 the run ends with the exception of the
    lookup before anything is submitted: no deployment, no contract call, no
    output, and the world is the initial one. *)
Theorem no_account_no_transaction :
  forall env w ex,
    env_accounts env 0 = inl ex ->
    let r := run_main env w in
    fst r = inl ex /\
    world (snd r) = w /\
    stdout (snd r) = [] /\
    map e_op (log (snd r)) = [OpAccounts 0].
Proof.
  intros env w ex Ha. run_cases.
  repeat split.
Qed.

(** X4. The update call is executed in the world the seeding call left:
    when [accounts[0]] is [a], the deployment returns [c] and the seeding
    call on [c] returns, the update entry of the log records what the
    environment answers to the update call in that world, and the run goes
    on from the world that answer leaves. *)
Theorem update_runs_on_seeded_world :
  forall env w a out1 c w1 out2 tx w2,
    env_accounts env 0 = inr a ->
    env_deploy env tree_depth [("from", a)] w = Reply out1 (inr c) w1 ->
    env_transact env c "testSetRootAndNumLeaves"
                 [PInt initial_root_value; PInt initial_num_of_leaves]
                 [("from", a)] w1 = Reply out2 (inr tx) w2 ->
    let upd := env_transact env c "testUpdateRecordsMerkleTree"
                            [PList flatten_frontier; PList elems]
                            [("from", a)] w2 in
    exists u,
      nth_error (log (snd (run_main env w))) 5 = Some u /\
      is_step Update u /\
      e_before u = out1 ++ out2 /\
      e_printed u = printed upd /\
      e_outcome u = match result upd with
                    | inl ex => inl ex
                    | inr t => inr (RTx t)
                    end /\
      (forall ex, result upd = inl ex ->
                  world (snd (run_main env w)) = world_after upd).
Proof.
  intros env w a out1 c w1 out2 tx w2 Ha Hd Hs. run_cases.
  all: eexists; split; [reflexivity|]; split; [reflexivity|].
  all: split; [cbn; rewrite ?app_nil_r; reflexivity|].
  all: split; [reflexivity|]; split; [reflexivity|].
  all: intros ex' Hex; first [discriminate Hex | reflexivity].
Qed.

End RunnerFacts.

(** Console mode is outside the assumption: there the receipt of the
    reverted seeding transaction is returned, the script does not read it,
    and the update call is issued all the same. *)
Lemma seeding_may_revert_before_update :
  ~ seeding_succeeded_before_update (Sim.env Sim.seed_reverted) 0%nat.
Proof.
  intros H.
  pose (l := log (snd (run_main (Sim.env Sim.seed_reverted) 0%nat))).
  pose (none := Entry nat nat Sim.receipt Sim.exn (OpAccounts 0) [] [] (inr RNone)).
  let pre := eval vm_compute in (firstn 5 l) in
  let u := eval vm_compute in (nth 5 l none) in
  let post := eval vm_compute in (skipn 6 l) in
  destruct (H pre u post) as (s & tx & Hin & Hs & Hout & w' & Hst);
    [vm_compute; reflexivity | reflexivity |].
  clear H l none.
  destruct Hin as [<- | [<- | [<- | [<- | [<- | []]]]]]; try discriminate Hs.
  injection Hout as <-. discriminate Hst.
Qed.

(** The test chain raises on a revert when its plan says so. *)
Lemma sim_reverted_call_raises (p : Sim.plan) :
  Sim.raise_on_revert p = true -> reverted_call_raises (Sim.env p).
Proof.
  intros Hp c m args params w tx. cbn.
  unfold Sim.transact, Sim.submit. rewrite Hp. cbn.
  destruct (String.eqb m "testSetRootAndNumLeaves");
    [|destruct (String.eqb m "testUpdateRecordsMerkleTree")];
    try discriminate.
  - destruct (Z.eqb_spec (Sim.seed_status p) 1) as [E|E]; cbn;
      intros H; inversion H; subst; cbn; congruence.
  - destruct (Z.eqb_spec (Sim.update_status p) 1) as [E|E]; cbn;
      intros H; inversion H; subst; cbn; congruence.
Qed.

(** C2, an instance: the run in which everything works. *)
Lemma seeding_succeeded_before_update_issued_witness :
  let env := Sim.env Sim.healthy in
  let l := log (snd (run_main env 0%nat)) in
  let none := Entry nat nat Sim.receipt Sim.exn (OpAccounts 0) [] [] (inr RNone) in
  let pre := firstn 5 l in
  let u := nth 5 l none in
  (reverted_call_raises env /\ l = pre ++ u :: skipn 6 l /\
   is_step Update u) /\
  exists a c s tx,
    In s pre /\
    is_step Seed s /\
    e_op s = OpTransact c "testSetRootAndNumLeaves"
                        [PInt initial_root_value; PInt 1] [("from", a)] /\
    e_outcome s = inr (RTx tx) /\
    status_reads env tx 1 /\
    Exists (fun d => e_op d = OpDeploy 20 [("from", a)] /\
                     e_outcome d = inr (RContract c)) pre /\
    e_op u = OpTransact c "testUpdateRecordsMerkleTree"
                        [PList flatten_frontier; PList elems]
                        [("from", a)].
Proof.
  intros env l none pre u.
  assert (Hrev : reverted_call_raises env)
    by exact (sim_reverted_call_raises Sim.healthy eq_refl).
  assert (Hl : l = pre ++ u :: skipn 6 l) by (vm_compute; reflexivity).
  assert (Hu : is_step Update u) by (vm_compute; reflexivity).
  split; [split; [exact Hrev | split; [exact Hl | exact Hu]]|].
  exact (seeding_succeeded_before_update_issued
           env 0%nat Hrev pre u (skipn 6 l) Hl Hu).
Defined.


(** ** Runs on the test chain *)

Example healthy_run :
  let r := run_main (Sim.env Sim.healthy) 0%nat in
  fst r = inr tt /\
  steps (log (snd r)) = [Deploy; Seed; Update] /\
  stdout (snd r) =
    ["Transaction sent"; "TestRecordsMerkleTree deployed";
     "Transaction sent"; "Transaction confirmed";
     "Transaction sent"; "Transaction confirmed";
     "Transaction was Mined"; "Gas Used";
     "Call trace for the transaction"].
Proof. vm_compute. repeat split. Qed.

Example no_trace_run :
  let r := run_main (Sim.env Sim.no_trace) 0%nat in
  fst r = inl Sim.RPCRequestError /\
  steps (log (snd r)) = [Deploy; Seed; Update] /\
  stdout (snd r) =
    ["Transaction sent"; "TestRecordsMerkleTree deployed";
     "Transaction sent"; "Transaction confirmed";
     "Transaction sent"; "Transaction confirmed";
     "Transaction was Mined"; "Gas Used"].
Proof. vm_compute. repeat split. Qed.

Example update_raises_run :
  let r := run_main (Sim.env Sim.update_raises) 0%nat in
  fst r = inl Sim.VirtualMachineError /\
  steps (log (snd r)) = [Deploy; Seed; Update] /\
  map (fun en => diagnosed (e_op en)) (log (snd r)) =
    [None; None; None; None; None; None].
Proof. vm_compute. repeat split. Qed.

Example seed_reverted_run :
  let r := run_main (Sim.env Sim.seed_reverted) 0%nat in
  fst r = inr tt /\
  steps (log (snd r)) = [Deploy; Seed; Update] /\
  map e_outcome (firstn 4 (skipn 3 (log (snd r)))) =
    [inr (RTx (Sim.Receipt 1 0)); inr (RAccount 0%nat);
     inr (RTx (Sim.Receipt 2 1)); inr RNone].
Proof. vm_compute. repeat split. Qed.

Example no_account_run :
  let p := {| Sim.funded := 0; Sim.deploy_fails := false;
              Sim.seed_status := 1; Sim.update_status := 1;
              Sim.raise_on_revert := true; Sim.trace_available := true |} in
  let r := run_main (Sim.env p) 0%nat in
  fst r = inl Sim.IndexError /\ steps (log (snd r)) = [] /\
  stdout (snd r) = [].
Proof. vm_compute. repeat split. Qed.

(** X3, an instance: a chain without accounts. *)
Lemma no_account_no_transaction_witness :
  let p := {| Sim.funded := 0; Sim.deploy_fails := false;
              Sim.seed_status := 1; Sim.update_status := 1;
              Sim.raise_on_revert := true; Sim.trace_available := true |} in
  let r := run_main (Sim.env p) 7%nat in
  Sim.accounts p 0 = inl Sim.IndexError /\
  (fst r = inl Sim.IndexError /\
   world (snd r) = 7%nat /\
   stdout (snd r) = [] /\
   map e_op (log (snd r)) = [OpAccounts 0]).
Proof.
  intros p r.
  assert (Ha : env_accounts (Sim.env p) 0 = inl Sim.IndexError)
    by (vm_compute; reflexivity).
  split; [exact Ha|].
  exact (no_account_no_transaction (Sim.env p) 7%nat Sim.IndexError Ha).
Defined.

(** X4, an instance: the update transaction reverts and brownie raises. *)
Lemma update_runs_on_seeded_world_witness :
  let env := Sim.env Sim.update_raises in
  let sent := ["Transaction sent"; "Transaction confirmed"] in
  let deployed := ["Transaction sent"; "TestRecordsMerkleTree deployed"] in
  let upd := env_transact env 0%nat "testUpdateRecordsMerkleTree"
                          [PList flatten_frontier; PList elems]
                          [("from", 0%nat)] 2%nat in
  (env_accounts env 0 = inr 0%nat /\
   env_deploy env tree_depth [("from", 0%nat)] 0%nat =
     Reply deployed (inr 0%nat) 1%nat /\
   env_transact env 0%nat "testSetRootAndNumLeaves"
                [PInt initial_root_value; PInt initial_num_of_leaves]
                [("from", 0%nat)] 1%nat =
     Reply sent (inr (Sim.Receipt 1 1)) 2%nat) /\
  exists u,
    nth_error (log (snd (run_main env 0%nat))) 5 = Some u /\
    is_step Update u /\
    e_before u = deployed ++ sent /\
    e_printed u = printed upd /\
    e_outcome u = match result upd with
                  | inl ex => inl ex
                  | inr t => inr (RTx t)
                  end /\
    (forall ex, result upd = inl ex ->
                world (snd (run_main env 0%nat)) = world_after upd).
Proof.
  intros env sent deployed upd.
  assert (Ha : env_accounts env 0 = inr 0%nat) by (vm_compute; reflexivity).
  assert (Hd : env_deploy env tree_depth [("from", 0%nat)] 0%nat =
               Reply deployed (inr 0%nat) 1%nat) by (vm_compute; reflexivity).
  assert (Hs : env_transact env 0%nat "testSetRootAndNumLeaves"
                 [PInt initial_root_value; PInt initial_num_of_leaves]
                 [("from", 0%nat)] 1%nat =
               Reply sent (inr (Sim.Receipt 1 1)) 2%nat)
    by (vm_compute; reflexivity).
  split; [split; [exact Ha | split; [exact Hd | exact Hs]]|].
  exact (update_runs_on_seeded_world env 0%nat 0%nat deployed 0%nat 1%nat
           sent (Sim.Receipt 1 1) 2%nat Ha Hd Hs).
Defined.
